(** * Notification subsystem of toms-bar (GastroPro)

    Shallow embedding of the notification parts of the restaurant
    application:
    - the browser client [NotificationManager] (notifications.js) and the
      notification REST clients [notificationsAPI] (api.js) and
      [enhancedAPI] (enhanced-api.js);
    - the server-side notification service (classifier, duplicate
      suppressor, notification service, inventory scan), whose Python
      source is not part of the sources at hand and is modelled from the
      specification.

    JavaScript values are modelled by [jsval]; object literals by
    association lists looked up through the [Object.prototype] chain. *)

From Stdlib Require Import String List ZArith Bool Lia Decimal.
Import ListNotations.
Open Scope string_scope.

(* ------------------------------------------------------------------ *)
(** ** JavaScript values *)

Inductive jsval : Type :=
| JUndef
| JNull
| JBool (b : bool)
| JNum (z : Z)
| JStr (s : string)
| JFun (name : string)
| JObj (name : string).

(** ToBoolean. *)
Definition truthy (v : jsval) : bool :=
  match v with
  | JUndef | JNull => false
  | JBool b => b
  | JNum z => negb (Z.eqb z 0)
  | JStr s => negb (String.eqb s "")
  | JFun _ | JObj _ => true
  end.

(** [a || b] *)
Definition js_or (a b : jsval) : jsval := if truthy a then a else b.

Fixpoint string_of_uint (u : uint) : string :=
  match u with
  | Nil => ""
  | D0 u => "0" ++ string_of_uint u
  | D1 u => "1" ++ string_of_uint u
  | D2 u => "2" ++ string_of_uint u
  | D3 u => "3" ++ string_of_uint u
  | D4 u => "4" ++ string_of_uint u
  | D5 u => "5" ++ string_of_uint u
  | D6 u => "6" ++ string_of_uint u
  | D7 u => "7" ++ string_of_uint u
  | D8 u => "8" ++ string_of_uint u
  | D9 u => "9" ++ string_of_uint u
  end.

(** Decimal rendering of an integral JS number. *)
Definition string_of_Z (z : Z) : string :=
  match Z.to_int z with
  | Pos u => string_of_uint u
  | Neg u => "-" ++ string_of_uint u
  end.

(** ToString, as used by [textContent = v] and [String(v)]. *)
Definition js_to_string (v : jsval) : string :=
  match v with
  | JUndef => "undefined"
  | JNull => "null"
  | JBool true => "true"
  | JBool false => "false"
  | JNum z => string_of_Z z
  | JStr s => s
  | JFun name => "function " ++ name ++ "() { [native code] }"
  | JObj _ => "[object Object]"
  end.

Fixpoint assoc {A : Type} (l : list (string * A)) (k : string) : option A :=
  match l with
  | [] => None
  | (k', v) :: l' => if String.eqb k k' then Some v else assoc l' k
  end.

(** Properties every object literal inherits from [Object.prototype]. *)
Definition object_prototype : list (string * jsval) :=
  [ ("constructor", JFun "Object");
    ("__proto__", JObj "Object.prototype");
    ("__defineGetter__", JFun "__defineGetter__");
    ("__defineSetter__", JFun "__defineSetter__");
    ("__lookupGetter__", JFun "__lookupGetter__");
    ("__lookupSetter__", JFun "__lookupSetter__");
    ("hasOwnProperty", JFun "hasOwnProperty");
    ("isPrototypeOf", JFun "isPrototypeOf");
    ("propertyIsEnumerable", JFun "propertyIsEnumerable");
    ("toLocaleString", JFun "toLocaleString");
    ("toString", JFun "toString");
    ("valueOf", JFun "valueOf") ].

(** [obj[key]] on an object literal with own properties [own]. *)
Definition obj_get (own : list (string * jsval)) (key : string) : jsval :=
  match assoc own key with
  | Some v => v
  | None =>
      match assoc object_prototype key with
      | Some v => v
      | None => JUndef
      end
  end.

(* ------------------------------------------------------------------ *)
(** ** NotificationManager: rendering helpers (notifications.js) *)

Definition priority_classes : list (string * jsval) :=
  [ ("low", JStr "bg-gray-500");
    ("normal", JStr "bg-blue-500");
    ("high", JStr "bg-orange-500");
    ("urgent", JStr "bg-red-500") ].

(** [getPriorityClass(priority)]:
    [return classes[priority] || classes.normal;] *)
Definition getPriorityClass (priority : string) : jsval :=
  js_or (obj_get priority_classes priority) (obj_get priority_classes "normal").

(** The [#notificationBadge] element: its text and its [hidden] class. *)
Record Badge := mkBadge { badge_text : string; badge_hidden : bool }.

(** [updateBadge()]; [None] is a page without the badge element. *)
Definition updateBadge (unreadCount : Z) (badge : option Badge) : option Badge :=
  match badge with
  | None => None
  | Some b =>
      if Z.gtb unreadCount 0 then
        Some (mkBadge
                (js_to_string (if Z.gtb unreadCount 99 then JStr "99+"
                               else JNum unreadCount))
                false)
      else Some (mkBadge (badge_text b) true)
  end.

(* ------------------------------------------------------------------ *)
(** ** NotificationManager: local state (notifications.js) *)

Section Client.

(** Notification ids as the client holds them, and JavaScript's loose
    equality [==] on them; [a != b] is [!(a == b)]. *)
Variable Id : Type.
Variable id_eq : Id -> Id -> bool.

(** A notification object as held in [this.notifications]. *)
Record ClientNotif := mkClientNotif {
  cn_id : Id;
  cn_is_read : bool;
  cn_fields : list (string * jsval)   (* title, message, priority, ... *)
}.

Record ClientState := mkClientState {
  notifications : list ClientNotif;
  unreadCount : Z
}.

(** [n.is_read = true] on the shared object [n]: every occurrence of
    that object in the list is updated. The list holds each object once;
    [set_read_first] updates the first element matching [id], which is the
    object returned by [find]. *)
Fixpoint set_read_first (nid : Id) (l : list ClientNotif) : list ClientNotif :=
  match l with
  | [] => []
  | n :: l' =>
      if id_eq (cn_id n) nid
      then mkClientNotif (cn_id n) true (cn_fields n) :: l'
      else n :: set_read_first nid l'
  end.

(** [markAsRead(notificationId)] after [await notificationsAPI.markAsRead]:
    [api_ok = false] is the call throwing (caught and logged). *)
Definition client_markAsRead (api_ok : bool) (nid : Id) (st : ClientState)
  : ClientState :=
  if api_ok then
    match find (fun n => id_eq (cn_id n) nid) (notifications st) with
    | Some n =>
        if negb (cn_is_read n) then
          mkClientState (set_read_first nid (notifications st))
                        (Z.max 0 (unreadCount st - 1))
        else st
    | None => st
    end
  else st.

(** [dismissNotification(notificationId)]: the list is filtered first,
    then the unread decrement looks the id up in the filtered list. *)
Definition dismissNotification (api_ok : bool) (nid : Id) (st : ClientState)
  : ClientState :=
  if api_ok then
    let ns := filter (fun n => negb (id_eq (cn_id n) nid)) (notifications st) in
    let uc :=
      match find (fun n => id_eq (cn_id n) nid) ns with
      | Some n => if negb (cn_is_read n) then Z.max 0 (unreadCount st - 1)
                  else unreadCount st
      | None => unreadCount st
      end in
    mkClientState ns uc
  else st.

End Client.

Arguments mkClientNotif {Id}.
Arguments cn_id {Id}.
Arguments cn_is_read {Id}.
Arguments cn_fields {Id}.
Arguments mkClientState {Id}.
Arguments notifications {Id}.
Arguments unreadCount {Id}.

(* ------------------------------------------------------------------ *)
(** ** NotificationManager: polling (notifications.js) *)

(** The browser timer table: active interval timers with their delay,
    and the next id [setInterval] hands out (browsers return positive
    integers). *)
Record PollState := mkPollState {
  isPolling : bool;
  pollIntervalId : option N;           (* [None] is [undefined] *)
  pollInterval : Z;
  timers : list (N * Z);
  next_timer : N;
  refreshes : nat                      (* calls of [loadNotifications] *)
}.

(** State after the constructor's field initialisation. *)
Definition poll_init (first_id : N) : PollState :=
  mkPollState false None 30000 [] first_id 0.

Definition setInterval (ms : Z) (s : PollState) : N * PollState :=
  let t := next_timer s in
  (t, mkPollState (isPolling s) (pollIntervalId s) (pollInterval s)
                  ((t, ms) :: timers s) (N.succ t) (refreshes s)).

Definition clearInterval (t : N) (s : PollState) : PollState :=
  mkPollState (isPolling s) (pollIntervalId s) (pollInterval s)
              (filter (fun e => negb (N.eqb (fst e) t)) (timers s))
              (next_timer s) (refreshes s).

(** [startPolling()] *)
Definition startPolling (s : PollState) : PollState :=
  if isPolling s then s
  else
    let s1 := mkPollState true (pollIntervalId s) (pollInterval s)
                          (timers s) (next_timer s) (refreshes s) in
    let (t, s2) := setInterval (pollInterval s1) s1 in
    mkPollState (isPolling s2) (Some t) (pollInterval s2)
                (timers s2) (next_timer s2) (refreshes s2).

(** [stopPolling()]: [if (this.pollIntervalId)] is a truthiness test. *)
Definition stopPolling (s : PollState) : PollState :=
  match pollIntervalId s with
  | Some t =>
      if negb (N.eqb t 0) then
        let s1 := clearInterval t s in
        mkPollState false (pollIntervalId s1) (pollInterval s1)
                    (timers s1) (next_timer s1) (refreshes s1)
      else s
  | None => s
  end.

(** Timer [t] fires: if it is an active interval timer its callback
    [this.loadNotifications()] runs. *)
Definition fire (t : N) (s : PollState) : PollState :=
  if existsb (fun e => N.eqb (fst e) t) (timers s)
  then mkPollState (isPolling s) (pollIntervalId s) (pollInterval s)
                   (timers s) (next_timer s) (S (refreshes s))
  else s.

Inductive PollEvent := EvStart | EvStop | EvFire (t : N).

Definition poll_step (e : PollEvent) (s : PollState) : PollState :=
  match e with
  | EvStart => startPolling s
  | EvStop => stopPolling s
  | EvFire t => fire t s
  end.

(** Run from the constructor: [init()] calls [startPolling()] once, then
    the page drives the manager with any sequence of events. *)
Definition poll_run (first_id : N) (es : list PollEvent) : PollState :=
  fold_left (fun s e => poll_step e s) es (startPolling (poll_init first_id)).

(** The timer invariant of a [NotificationManager]: the interval is 30 s,
    timer ids handed out are non-zero, and while polling exactly the
    timer [pollIntervalId] is active, otherwise none. *)
Definition poll_inv (s : PollState) : Prop :=
  pollInterval s = 30000%Z
  /\ (0 < next_timer s)%N
  /\ (forall t, pollIntervalId s = Some t -> t <> 0%N)
  /\ (if isPolling s
      then exists t, pollIntervalId s = Some t /\ timers s = [(t, 30000%Z)]
      else timers s = []).

(* ------------------------------------------------------------------ *)
(** ** Notification service (server side) *)

Module Service.

Inductive Category := CInventory | COrders | CSystem | CStaff.
Inductive Priority := PLow | PNormal | PMedium | PHigh | PUrgent.
Inductive NType := TInfo | TWarning | TError | TSuccess.

Definition ntype_eqb (a b : NType) : bool :=
  match a, b with
  | TInfo, TInfo | TWarning, TWarning | TError, TError
  | TSuccess, TSuccess => true
  | _, _ => false
  end.

Definition category_eqb (a b : Category) : bool :=
  match a, b with
  | CInventory, CInventory | COrders, COrders | CSystem, CSystem
  | CStaff, CStaff => true
  | _, _ => false
  end.

Inductive EventKind :=
| inventory_low | inventory_out
| order_created | order_ready | order_delayed
| system_maintenance | system_critical | system_info.

Definition kind_name (k : EventKind) : string :=
  match k with
  | inventory_low => "inventory_low"
  | inventory_out => "inventory_out"
  | order_created => "order_created"
  | order_ready => "order_ready"
  | order_delayed => "order_delayed"
  | system_maintenance => "system_maintenance"
  | system_critical => "system_critical"
  | system_info => "system_info"
  end.

Definition all_kinds : list EventKind :=
  [inventory_low; inventory_out; order_created; order_ready; order_delayed;
   system_maintenance; system_critical; system_info].

Inductive ServiceError := InvalidEventKind | NotFound.

Inductive result (A : Type) :=
| Ok (a : A)
| Err (e : ServiceError).
Arguments Ok {A}.
Arguments Err {A}.

(** Modelled from the spec: the classifier of [simple_notifications.py]
    (not among the sources), spec section 4.1, its mapping table. *)
Definition kind_triple (k : EventKind) : Category * Priority * NType :=
  match k with
  | inventory_low => (CInventory, PMedium, TWarning)
  | inventory_out => (CInventory, PHigh, TError)
  | order_created => (COrders, PNormal, TInfo)
  | order_ready => (COrders, PNormal, TSuccess)
  | order_delayed => (COrders, PHigh, TWarning)
  | system_maintenance => (CSystem, PHigh, TWarning)
  | system_critical => (CSystem, PHigh, TError)
  | system_info => (CSystem, PNormal, TInfo)
  end.

Definition parse_kind (s : string) : option EventKind :=
  find (fun k => String.eqb (kind_name k) s) all_kinds.

(** Modelled from the spec: [classify(kind)], failing with
    [InvalidEventKind] outside the closed set. *)
Definition classify (kind : string) : result (Category * Priority * NType) :=
  match parse_kind kind with
  | Some k => Ok (kind_triple k)
  | None => Err InvalidEventKind
  end.

(** A stored notification row (spec section 3). *)
Record Notification := mkNotification {
  id : N;
  category : Category;
  notification_type : NType;
  priority : Priority;
  title : string;
  message : string;
  recipient_id : option N;
  action_url : option string;
  action_label : option string;
  is_read : bool;
  is_dismissed : bool;
  created_at : Z;
  expires_at : option Z;
  related_entity_type : option string;
  related_entity_id : option N
}.

Record Store := mkStore { rows : list Notification; next_id : N }.

Definition empty_store : Store := mkStore [] 1.

(** An event descriptor: the kind, its texts and its subject. *)
Record EventDesc := mkEventDesc {
  ev_kind : string;
  ev_title : string;
  ev_message : string;
  ev_subject : option (string * N);
  ev_recipient : option N
}.

Definition opt_eqb {A} (eqb : A -> A -> bool) (a b : option A) : bool :=
  match a, b with
  | Some x, Some y => eqb x y
  | None, None => true
  | _, _ => false
  end.

(** Urgency within the one escalation family, inventory alerts:
    [inventory_low] (warning) < [inventory_out] (error). *)
Definition urgency (c : Category) (t : NType) : option nat :=
  match c, t with
  | CInventory, TWarning => Some 0
  | CInventory, TError => Some 1
  | _, _ => None
  end.

(** Modelled from the spec: the suppression query of section 4.2, a
    non-dismissed row on the same (entity type, entity id, category)
    created at or after [now - window]. *)
Definition is_match (window now : Z) (rt : string) (rid : N) (c : Category)
  (m : Notification) : bool :=
  opt_eqb String.eqb (related_entity_type m) (Some rt)
  && opt_eqb N.eqb (related_entity_id m) (Some rid)
  && category_eqb (category m) c
  && negb (is_dismissed m)
  && Z.leb (now - window) (created_at m).

(** A match blocks the candidate unless the candidate is strictly more
    urgent than it. *)
Definition blocks (c : Category) (t : NType) (m : Notification) : bool :=
  ntype_eqb (notification_type m) t
  || match urgency (category m) (notification_type m), urgency c t with
     | Some a, Some b => Nat.leb b a
     | _, _ => false
     end.

(** Modelled from the spec: the duplicate suppressor, "should create". *)
Definition should_create (window now : Z) (rt : string) (rid : N)
  (c : Category) (t : NType) (s : Store) : bool :=
  negb (existsb (fun m => is_match window now rt rid c m && blocks c t m)
                (rows s)).

(** Modelled from the spec: [create(eventDescriptor)] of section 4.3:
    classify, check suppression when the subject is present, insert. *)
Definition create (window now : Z) (s : Store) (ev : EventDesc)
  : result (option Notification * Store) :=
  match classify (ev_kind ev) with
  | Err e => Err e
  | Ok (c, p, t) =>
      let allowed :=
        match ev_subject ev with
        | Some (rt, rid) => should_create window now rt rid c t s
        | None => true
        end in
      if allowed then
        let n := mkNotification (next_id s) c t p (ev_title ev) (ev_message ev)
                   (ev_recipient ev) None None false false now None
                   (option_map fst (ev_subject ev))
                   (option_map snd (ev_subject ev)) in
        Ok (Some n, mkStore (rows s ++ [n]) (N.succ (next_id s)))
      else Ok (None, s)
  end.

(** An inventory item as the inventory provider lists it. *)
Record InventoryItem := mkInventoryItem {
  item_id : N;
  current_stock : Z;
  minimum_stock : Z;
  name : string
}.

(** Modelled from the spec: the event [checkInventoryAndCreateAlerts]
    emits for one item. *)
Definition alert_kind (it : InventoryItem) : option EventKind :=
  if Z.leb (current_stock it) 0 then Some inventory_out
  else if Z.leb (current_stock it) (minimum_stock it) then Some inventory_low
  else None.

(** The emitted event: subject [("inventory_item", id)]; the spec fixes
    no wording for the texts, which carry the kind and the item name. *)
Definition alert_event (it : InventoryItem) (k : EventKind) : EventDesc :=
  mkEventDesc (kind_name k) (kind_name k) (name it)
              (Some ("inventory_item", item_id it)) None.

Definition check_step (window now : Z) (acc : nat * Store) (it : InventoryItem)
  : nat * Store :=
  let (cnt, s) := acc in
  match alert_kind it with
  | None => acc
  | Some k =>
      match create window now s (alert_event it k) with
      | Ok (Some _, s') => (S cnt, s')
      | Ok (None, s') => (cnt, s')
      | Err _ => (cnt, s)
      end
  end.

(** Modelled from the spec: [checkInventoryAndCreateAlerts()], returning
    the number of notifications created and the store after the scan. *)
Definition checkInventoryAndCreateAlerts (window now : Z) (s : Store)
  (items : list InventoryItem) : nat * Store :=
  fold_left (check_step window now) items (0%nat, s).

Definition find_row (nid : N) (s : Store) : option Notification :=
  find (fun n => N.eqb (id n) nid) (rows s).

Definition set_read (n : Notification) : Notification :=
  mkNotification (id n) (category n) (notification_type n) (priority n)
    (title n) (message n) (recipient_id n) (action_url n) (action_label n)
    true (is_dismissed n) (created_at n) (expires_at n)
    (related_entity_type n) (related_entity_id n).

Definition upd_read (nid : N) (r : Notification) : Notification :=
  if N.eqb (id r) nid then set_read r else r.

(** Modelled from the spec: [markRead(id)]; [NotFound] when absent. *)
Definition markRead (nid : N) (s : Store) : result (Notification * Store) :=
  match find_row nid s with
  | None => Err NotFound
  | Some n =>
      Ok (set_read n,
          mkStore (map (upd_read nid) (rows s))
                  (next_id s))
  end.

(** Modelled from the spec: the unread count of [stats] and
    [/notifications/unread-count], over non-dismissed rows. *)
Definition unread_count (s : Store) : nat :=
  length (filter (fun n => negb (is_read n) && negb (is_dismissed n)) (rows s)).

(** The client's [markAsRead(notificationId)] against the service: the
    PUT is served by [markRead]; a failure is caught by the client. *)
Definition sys_markAsRead (nid : N) (sys : Store * ClientState N)
  : result Notification * (Store * ClientState N) :=
  let (s, c) := sys in
  match markRead nid s with
  | Ok (n, s') => (Ok n, (s', client_markAsRead N N.eqb true nid c))
  | Err e => (Err e, (s, client_markAsRead N N.eqb false nid c))
  end.

End Service.

(* ------------------------------------------------------------------ *)
(** ** REST clients of the notification endpoints *)

Module Rest.

Inductive Method := GET | POST | PUT | PATCH | DELETE.

(** An HTTP request: method, URL path, query parameters in the order
    [URLSearchParams] holds them, and the JSON body. *)
Record Request := mkRequest {
  method : Method;
  path : string;
  query : list (string * string);
  body : list (string * jsval)
}.

Definition API_BASE_URL : string := "http://localhost:8000/api".

(** A parameter with default [null]: passing [undefined] gives [null]. *)
Definition default_null (v : jsval) : jsval :=
  match v with JUndef => JNull | _ => v end.

(** [if (v) params.append(key, v)] *)
Definition append_if (key : string) (v : jsval) (ps : list (string * string))
  : list (string * string) :=
  if truthy v then List.app ps [(key, js_to_string v)] else ps.

(** The notification calls of [notificationsAPI] (api.js) and of
    [systemAPI] (enhanced-api.js). *)
Inductive ClientCall :=
| getAll (filters : list (string * jsval))
| getStats (userId : jsval)
| getUnreadCount (userId : jsval)
| create (notificationData : list (string * jsval))
| markAsRead (notificationId : jsval)
| markAsDismissed (notificationId : jsval)
| markAllAsRead (userId category : jsval)
| delete (notificationId : jsval)
| cleanupExpired
| getNotifications (recipientId isRead notificationType : jsval)
| createNotification (notificationData : list (string * jsval))
| markNotificationRead (notificationId : jsval)
| markAllNotificationsRead (recipientId : jsval)
| checkLowStockNotifications.

Definition request_of (c : ClientCall) : Request :=
  match c with
  | getAll filters =>
      let ps := if truthy (obj_get filters "unread_only")
                then [("unread_only", "true")] else [] in
      let ps := append_if "category" (obj_get filters "category") ps in
      let ps := append_if "priority" (obj_get filters "priority") ps in
      let ps := append_if "user_id" (obj_get filters "user_id") ps in
      let ps := append_if "limit" (obj_get filters "limit") ps in
      mkRequest GET (API_BASE_URL ++ "/notifications/") ps []
  | getStats userId =>
      mkRequest GET (API_BASE_URL ++ "/notifications/stats")
        (append_if "user_id" (default_null userId) []) []
  | getUnreadCount userId =>
      mkRequest GET (API_BASE_URL ++ "/notifications/unread-count")
        (append_if "user_id" (default_null userId) []) []
  | create data =>
      mkRequest POST (API_BASE_URL ++ "/notifications/") [] data
  | markAsRead nid =>
      mkRequest PUT (API_BASE_URL ++ "/notifications/" ++ js_to_string nid) []
        [("is_read", JBool true)]
  | markAsDismissed nid =>
      mkRequest PUT (API_BASE_URL ++ "/notifications/" ++ js_to_string nid) []
        [("is_dismissed", JBool true)]
  | markAllAsRead userId category =>
      let ps := append_if "user_id" (default_null userId) [] in
      let ps := append_if "category" (default_null category) ps in
      mkRequest POST (API_BASE_URL ++ "/notifications/mark-all-read") ps []
  | delete nid =>
      mkRequest DELETE (API_BASE_URL ++ "/notifications/" ++ js_to_string nid)
        [] []
  | cleanupExpired =>
      mkRequest POST (API_BASE_URL ++ "/notifications/cleanup-expired") [] []
  | getNotifications recipientId isRead notificationType =>
      let ps := append_if "recipient_id" (default_null recipientId) [] in
      let ps := match default_null isRead with
                | JNull => ps
                | v => List.app ps [("is_read", js_to_string v)]
                end in
      let ps := append_if "notification_type" (default_null notificationType) ps in
      mkRequest GET (API_BASE_URL ++ "/system/notifications/") ps []
  | createNotification data =>
      mkRequest POST (API_BASE_URL ++ "/system/notifications/") [] data
  | markNotificationRead nid =>
      mkRequest POST (API_BASE_URL ++ "/system/notifications/"
                      ++ js_to_string nid ++ "/mark-read") [] []
  | markAllNotificationsRead recipientId =>
      mkRequest POST (API_BASE_URL ++ "/system/notifications/mark-all-read")
        (append_if "recipient_id" (default_null recipientId) []) []
  | checkLowStockNotifications =>
      mkRequest POST (API_BASE_URL ++ "/system/notifications/check-low-stock")
        [] []
  end.

(** A stored notification as its JSON row. *)
Definition Row := list (string * jsval).

Definition row_get (r : Row) (k : string) : option jsval := assoc r k.

Definition set_field (k : string) (v : jsval) (r : Row) : Row := (k, v) :: r.

Definition row_id_str (r : Row) : string :=
  match row_get r "id" with Some v => js_to_string v | None => "" end.

Section Server.

(** Which rows a bulk mark-all-read selects for its query, and which rows
    the cleanup sweep purges: left open. *)
Variable bulk_match : list (string * string) -> Row -> bool.
Variable purge : Row -> bool.

(** Modelled from the spec: the effect of one request on an existing
    row, as the REST table of section 6 describes the endpoints ([PUT]
    writes every field its body carries; [None] is the row removed).
    Fetches and creations leave existing rows as they are. *)
Definition server_effect (rq : Request) (r : Row) : option Row :=
  let item := API_BASE_URL ++ "/notifications/" ++ row_id_str r in
  match method rq with
  | PUT =>
      if String.eqb (path rq) item
      then Some (fold_left (fun acc kv => set_field (fst kv) (snd kv) acc)
                           (body rq) r)
      else Some r
  | DELETE => if String.eqb (path rq) item then None else Some r
  | POST =>
      if String.eqb (path rq) (API_BASE_URL ++ "/notifications/mark-all-read")
         || String.eqb (path rq)
              (API_BASE_URL ++ "/system/notifications/mark-all-read")
      then Some (if bulk_match (query rq) r
                 then set_field "is_read" (JBool true) r else r)
      else if String.eqb (path rq) (API_BASE_URL ++ "/system/notifications/"
                                    ++ row_id_str r ++ "/mark-read")
      then Some (set_field "is_read" (JBool true) r)
      else if String.eqb (path rq)
                (API_BASE_URL ++ "/notifications/cleanup-expired")
      then (if purge r then None else Some r)
      else Some r
  | _ => Some r
  end.

(** [r'] differs from [r] at most in [is_read] and [is_dismissed], each
    either kept or set to [true]. *)
Definition flip_only (r r' : Row) : Prop :=
  (forall k, k <> "is_read" -> k <> "is_dismissed" -> row_get r' k = row_get r k)
  /\ (row_get r' "is_read" = row_get r "is_read"
      \/ row_get r' "is_read" = Some (JBool true))
  /\ (row_get r' "is_dismissed" = row_get r "is_dismissed"
      \/ row_get r' "is_dismissed" = Some (JBool true)).

End Server.

End Rest.

(* ------------------------------------------------------------------ *)
(** ** NotificationManager: further helpers (notifications.js) *)

Definition type_icons : list (string * jsval) :=
  [ ("info", JStr "fas fa-info");
    ("warning", JStr "fas fa-exclamation-triangle");
    ("error", JStr "fas fa-exclamation-circle");
    ("success", JStr "fas fa-check-circle") ].

(** [getTypeIcon(type)]: [return icons[type] || icons.info;] *)
Definition getTypeIcon (type : string) : jsval :=
  js_or (obj_get type_icons type) (obj_get type_icons "info").

(** [getTimeAgo(dateString)]. [date] is [new Date(dateString)] in
    milliseconds, [None] for an invalid date (whose time value is NaN: all
    comparisons fail and [Math.floor(NaN / 86400)] prints "NaN"); [now] is
    [new Date()]. [Math.floor] of the quotient is [Z.div]. *)
Definition getTimeAgo (date : option Z) (now : Z) : string :=
  match date with
  | None => "NaN" ++ "d ago"
  | Some d =>
      let diffInSeconds := Z.div (now - d) 1000 in
      if Z.ltb diffInSeconds 60 then "Just now"
      else if Z.ltb diffInSeconds 3600 then
        string_of_Z (Z.div diffInSeconds 60) ++ "m ago"
      else if Z.ltb diffInSeconds 86400 then
        string_of_Z (Z.div diffInSeconds 3600) ++ "h ago"
      else string_of_Z (Z.div diffInSeconds 86400) ++ "d ago"
  end.

(** [markAllAsRead()] after [await notificationsAPI.markAllAsRead()]:
    every local notification is flagged read and the counter reset. *)
Definition client_markAllAsRead {Id : Type} (api_ok : bool) (st : ClientState Id)
  : ClientState Id :=
  if api_ok then
    mkClientState (map (fun n => mkClientNotif (cn_id n) true (cn_fields n))
                       (notifications st)) 0
  else st.

(** Timer ids the manager remembers were handed out before [next_timer]. *)
Definition poll_ids_fresh (s : PollState) : Prop :=
  forall t, pollIntervalId s = Some t -> (t < next_timer s)%N.

(** The three handlers that change the local list, as the click
    handlers of [updateNotificationList] and the header button trigger
    them; [ok] tells whether the awaited API call resolved. *)
Section ClientOps.

Variable Id : Type.
Variable id_eq : Id -> Id -> bool.

Inductive ClientOp :=
| OpMarkRead (ok : bool) (nid : Id)
| OpDismiss (ok : bool) (nid : Id)
| OpMarkAll (ok : bool).

Definition client_step (o : ClientOp) (st : ClientState Id) : ClientState Id :=
  match o with
  | OpMarkRead ok nid => client_markAsRead Id id_eq ok nid st
  | OpDismiss ok nid => dismissNotification Id id_eq ok nid st
  | OpMarkAll ok => client_markAllAsRead ok st
  end.

Definition client_run (os : list ClientOp) (st : ClientState Id) : ClientState Id :=
  fold_left (fun s o => client_step o s) os st.

(** Entries of the local list rendered as unread ([!notification.is_read]). *)
Definition count_unread (l : list (ClientNotif Id)) : Z :=
  Z.of_nat (length (filter (fun n => negb (cn_is_read n)) l)).

End ClientOps.

Arguments OpMarkRead {Id}.
Arguments OpDismiss {Id}.
Arguments OpMarkAll {Id}.
Arguments client_run {Id}.
Arguments count_unread {Id}.

(* ------------------------------------------------------------------ *)
(** ** Other list requests of api.js *)

Module RestMore.
Import Rest.

(** [if (v !== undefined) queryParams.append(key, v)] *)
Definition append_if_defined (key : string) (v : jsval) (ps : list (string * string))
  : list (string * string) :=
  match v with
  | JUndef => ps
  | _ => List.app ps [(key, js_to_string v)]
  end.

(** [menuAPI.getAll(params)] *)
Definition menu_getAll (params : list (string * jsval)) : Request :=
  let ps := append_if "category" (obj_get params "category") [] in
  let ps := append_if_defined "active_only" (obj_get params "active_only") ps in
  mkRequest GET (API_BASE_URL ++ "/menu/") ps [].

(** [inventoryAPI.getAll(params)] *)
Definition inventory_getAll (params : list (string * jsval)) : Request :=
  let ps := append_if "category" (obj_get params "category") [] in
  let ps := append_if "low_stock_only" (obj_get params "low_stock_only") ps in
  let ps := append_if "alcohol_only" (obj_get params "alcohol_only") ps in
  mkRequest GET (API_BASE_URL ++ "/inventory/") ps [].

(** [staffAPI.getAll(params)] *)
Definition staff_getAll (params : list (string * jsval)) : Request :=
  let ps := append_if "position" (obj_get params "position") [] in
  let ps := append_if_defined "active_only" (obj_get params "active_only") ps in
  mkRequest GET (API_BASE_URL ++ "/staff/") ps [].

End RestMore.


(* ------------------------------------------------------------------ *)
(** ** Concrete scenarios *)

Module Scenario.
Import Service.

(** An inventory row for item 7 created at time [t0]. *)
Definition inv_row (i : N) (t : NType) (p : Priority) (t0 : Z) : Notification :=
  mkNotification i CInventory t p "" "" None None None false false t0 None
    (Some "inventory_item") (Some 7%N).


(** Item 7 has a recent low-stock alert only. *)
Definition low_only : Store := mkStore [inv_row 1 TWarning PMedium 0] 2.


(** The items of the spec's scan example. *)
Definition scan_items : list InventoryItem :=
  [mkInventoryItem 1 0 5 "a"; mkInventoryItem 2 3 5 "b";
   mkInventoryItem 3 10 5 "c"].

End Scenario.

(* ================================================================== *)
(** * Properties *)

(* ------------------------------------------------------------------ *)
(** ** Badge and priority styling *)

Example string_of_Z_42 : string_of_Z 42 = "42".
Proof. reflexivity. Qed.

(** C9: with the badge element on the page, [updateBadge] hides it for a
    zero count, shows the exact count from 1 to 99, and "99+" above. *)
Theorem updateBadge_total (count : Z) (b : Badge) (Hnn : (0 <= count)%Z) :
  (count = 0%Z -> updateBadge count (Some b) = Some (mkBadge (badge_text b) true))
  /\ ((0 < count <= 99)%Z ->
      updateBadge count (Some b) = Some (mkBadge (string_of_Z count) false))
  /\ ((99 < count)%Z -> updateBadge count (Some b) = Some (mkBadge "99+" false)).
Proof.
  unfold updateBadge; rewrite !Z.gtb_ltb; repeat split; intros H.
  - subst count; reflexivity.
  - destruct (Z.ltb_spec 0 count); [| lia].
    destruct (Z.ltb_spec 99 count); [lia |]. reflexivity.
  - destruct (Z.ltb_spec 0 count); [| lia].
    destruct (Z.ltb_spec 99 count); [| lia]. reflexivity.
Qed.

Lemma updateBadge_total_witness :
  (0 <= 42)%Z /\
  updateBadge 42 (Some (mkBadge "0" true)) = Some (mkBadge "42" false).
Proof.
  split; [lia |].
  destruct (updateBadge_total 42 (mkBadge "0" true) ltac:(lia)) as [_ [H _]].
  rewrite (H ltac:(lia)); reflexivity.
Defined.

(** C10, a defect of [getPriorityClass]: [classes[priority]] also finds
    the properties every object literal inherits from [Object.prototype].
    For "toString" the lookup yields a (truthy) native function, which is
    returned instead of the "normal" class and is printed into the
    [class] attribute of the rendered item. *)
Lemma getPriorityClass_toString :
  getPriorityClass "toString" = JFun "toString"
  /\ getPriorityClass "toString" <> JStr "bg-blue-500"
  /\ js_to_string (getPriorityClass "toString")
     = "function toString() { [native code] }"
  /\ getPriorityClass "constructor" = JFun "Object".
Proof. split; [reflexivity |]. split; [discriminate |]. split; reflexivity. Qed.

(** C10: the four keys get their own class, and every other key that is
    not inherited from [Object.prototype], "medium" among them, gets the
    class of "normal". *)
Theorem getPriorityClass_fallback :
  getPriorityClass "low" = JStr "bg-gray-500"
  /\ getPriorityClass "normal" = JStr "bg-blue-500"
  /\ getPriorityClass "high" = JStr "bg-orange-500"
  /\ getPriorityClass "urgent" = JStr "bg-red-500"
  /\ getPriorityClass "medium" = JStr "bg-blue-500"
  /\ (forall p, assoc priority_classes p = None ->
                assoc object_prototype p = None ->
                getPriorityClass p = JStr "bg-blue-500").
Proof.
  repeat split; try reflexivity.
  intros p Hown Hproto.
  unfold getPriorityClass, obj_get. rewrite Hown, Hproto. reflexivity.
Qed.

(* ------------------------------------------------------------------ *)
(** ** Dismissal *)

Lemma find_in_filter_negb {A} (f : A -> bool) (l : list A) :
  find f (filter (fun x => negb (f x)) l) = None.
Proof.
  induction l as [| x l IH]; simpl; [reflexivity |].
  destruct (f x) eqn:E; simpl; [exact IH |]. rewrite E. exact IH.
Qed.

(** C8: [dismissNotification] drops every entry whose id is [==] to the
    given id, and never touches [unreadCount], whether the API call
    succeeds or not: the decrement looks the id up in the list it has
    just been removed from. *)
Theorem dismissNotification_unreadCount (Id : Type) (id_eq : Id -> Id -> bool)
  (nid : Id) (st : ClientState Id) :
  (forall api_ok,
     unreadCount (dismissNotification Id id_eq api_ok nid st) = unreadCount st)
  /\ (forall n, In n (notifications (dismissNotification Id id_eq true nid st))
                <-> In n (notifications st) /\ id_eq (cn_id n) nid = false).
Proof.
  split.
  - intros [|]; simpl; [| reflexivity].
    rewrite (find_in_filter_negb (fun n => id_eq (cn_id n) nid)). reflexivity.
  - intros n; simpl. rewrite filter_In.
    destruct (id_eq (cn_id n) nid); simpl; intuition congruence.
Qed.

(* ------------------------------------------------------------------ *)
(** ** Polling *)

Lemma poll_inv_init (first_id : N) :
  (0 < first_id)%N -> poll_inv (poll_init first_id).
Proof.
  intros H. unfold poll_inv; simpl. repeat split; auto. discriminate.
Qed.

Lemma poll_inv_start (s : PollState) : poll_inv s -> poll_inv (startPolling s).
Proof.
  unfold startPolling.
  destruct (isPolling s) eqn:Ep; [tauto |].
  unfold poll_inv. rewrite Ep.
  intros [Hi [Hn [Ht Hs]]]; simpl.
  repeat split; auto.
  - lia.
  - intros t [= <-]; lia.
  - exists (next_timer s); split; [reflexivity |]. rewrite Hs, Hi. reflexivity.
Qed.

Lemma poll_inv_stop (s : PollState) : poll_inv s -> poll_inv (stopPolling s).
Proof.
  intros HI. pose proof HI as [Hi [Hn [Ht Hs]]].
  unfold stopPolling.
  destruct (pollIntervalId s) as [t |] eqn:Eid; [| exact HI].
  destruct (N.eqb t 0) eqn:E0; simpl; [exact HI |].
  unfold poll_inv; simpl. split; [exact Hi |]. split; [exact Hn |].
  split; [rewrite Eid; exact Ht |].
  destruct (isPolling s).
  - destruct Hs as [t' [Ht' ->]]. injection Ht' as <-.
    simpl. rewrite N.eqb_refl. reflexivity.
  - rewrite Hs. reflexivity.
Qed.

Lemma poll_inv_fire (t : N) (s : PollState) : poll_inv s -> poll_inv (fire t s).
Proof.
  unfold fire. destruct (existsb _ _); [| tauto].
  unfold poll_inv; simpl. tauto.
Qed.

Lemma poll_inv_step (e : PollEvent) (s : PollState) :
  poll_inv s -> poll_inv (poll_step e s).
Proof.
  destruct e; simpl; [apply poll_inv_start | apply poll_inv_stop | apply poll_inv_fire].
Qed.

Lemma poll_inv_run (first_id : N) (es : list PollEvent) :
  (0 < first_id)%N -> poll_inv (poll_run first_id es).
Proof.
  intros H. unfold poll_run.
  generalize (poll_inv_start _ (poll_inv_init _ H)).
  generalize (startPolling (poll_init first_id)).
  induction es as [| e es IH]; simpl; intros s Hs; [exact Hs |].
  apply IH, poll_inv_step, Hs.
Qed.

Lemma fire_no_timers (ts : list N) (s : PollState) :
  timers s = [] -> fold_left (fun s t => fire t s) ts s = s.
Proof.
  revert s; induction ts as [| t ts IH]; simpl; intros s Hs; [reflexivity |].
  unfold fire at 2. rewrite Hs. simpl. apply IH, Hs.
Qed.

(** C7: from construction on, whatever the sequence of [startPolling],
    [stopPolling] and timer firings, the manager holds at most one
    interval timer, of 30 s; [startPolling] while polling changes
    nothing; after [stopPolling] no timer is left, so no firing refreshes
    the notifications any more. *)
Theorem polling_single_timer (first_id : N) (es : list PollEvent)
  (Hid : (0 < first_id)%N) :
  let s := poll_run first_id es in
  pollInterval s = 30000%Z
  /\ (length (timers s) <= 1)%nat
  /\ (forall e, In e (timers s) -> snd e = 30000%Z)
  /\ (isPolling s = true -> startPolling s = s)
  /\ timers (stopPolling s) = []
  /\ (forall ts, refreshes (fold_left (fun s t => fire t s) ts (stopPolling s))
                 = refreshes (stopPolling s)).
Proof.
  intros s.
  pose proof (poll_inv_run first_id es Hid) as HI. fold s in HI.
  pose proof (poll_inv_stop s HI) as [_ [_ [_ Hstop]]].
  assert (Hst : timers (stopPolling s) = []).
  { unfold stopPolling in *. destruct HI as [_ [_ [Ht Hs]]].
    destruct (isPolling s) eqn:Ep.
    - destruct Hs as [t [Eid Hts]]. rewrite Eid.
      rewrite (proj2 (N.eqb_neq t 0) (Ht t Eid)). simpl.
      rewrite Hts. simpl. rewrite N.eqb_refl. reflexivity.
    - destruct (pollIntervalId s) as [t |]; [| exact Hs].
      destruct (N.eqb t 0); simpl; rewrite Hs; reflexivity. }
  destruct HI as [Hi [_ [_ Hs]]].
  repeat split.
  - exact Hi.
  - destruct (isPolling s); [destruct Hs as [t [_ ->]]; simpl; lia | rewrite Hs; simpl; lia].
  - intros e He. destruct (isPolling s).
    + destruct Hs as [t [_ Hts]]. rewrite Hts in He. destruct He as [<- | []]. reflexivity.
    + rewrite Hs in He. destruct He.
  - intros Ep. unfold startPolling. rewrite Ep. reflexivity.
  - exact Hst.
  - intros ts. rewrite (fire_no_timers ts _ Hst). reflexivity.
Qed.

Lemma polling_single_timer_witness :
  (0 < 1)%N /\
  timers (stopPolling (poll_run 1 [EvStart; EvFire 1; EvStart])) = [].
Proof.
  split; [reflexivity |].
  exact (proj1 (proj2 (proj2 (proj2 (proj2
           (polling_single_timer 1 [EvStart; EvFire 1; EvStart] eq_refl)))))).
Defined.

(* ------------------------------------------------------------------ *)
(** ** Classification *)

Module ServiceFacts.
Import Service.

(** C2: the classifier reproduces the mapping table of every kind of the
    closed set and rejects every other kind with [InvalidEventKind]. *)
Theorem classify_table :
  classify "inventory_low" = Ok (CInventory, PMedium, TWarning)
  /\ classify "inventory_out" = Ok (CInventory, PHigh, TError)
  /\ classify "order_created" = Ok (COrders, PNormal, TInfo)
  /\ classify "order_ready" = Ok (COrders, PNormal, TSuccess)
  /\ classify "order_delayed" = Ok (COrders, PHigh, TWarning)
  /\ classify "system_maintenance" = Ok (CSystem, PHigh, TWarning)
  /\ classify "system_critical" = Ok (CSystem, PHigh, TError)
  /\ classify "system_info" = Ok (CSystem, PNormal, TInfo)
  /\ (forall kind, ~ In kind (map kind_name all_kinds) ->
                   classify kind = Err InvalidEventKind).
Proof.
  repeat split; try reflexivity.
  intros kind Hk. unfold classify, parse_kind.
  destruct (find _ all_kinds) as [k |] eqn:E; [| reflexivity].
  exfalso; apply Hk.
  destruct (find_some _ _ E) as [Hin Heq].
  apply String.eqb_eq in Heq. rewrite <- Heq. apply in_map, Hin.
Qed.

(* ------------------------------------------------------------------ *)
(** ** Duplicate suppression *)




Lemma ntype_eqb_true (a b : NType) : ntype_eqb a b = true -> a = b.
Proof. destruct a, b; simpl; congruence. Qed.



End ServiceFacts.

Module Suppression.
Import Service ServiceFacts Scenario.




End Suppression.

(* ------------------------------------------------------------------ *)
(** ** Inventory scan *)

Module InventoryScan.
Import Service ServiceFacts Scenario.

Lemma create_rows (window now : Z) (s s' : Store) (ev : EventDesc)
  (o : option Notification) :
  create window now s ev = Ok (o, s') ->
  length (rows s') = (length (rows s) + match o with Some _ => 1 | None => 0 end)%nat.
Proof.
  unfold create.
  destruct (classify (ev_kind ev)) as [[[c p] t] | e]; [| discriminate].
  destruct (match ev_subject ev with
            | Some (rt, rid) => should_create window now rt rid c t s
            | None => true end).
  - intros [= <- <-]. simpl. rewrite length_app. simpl. lia.
  - intros [= <- <-]. lia.
Qed.

Lemma check_step_count (window now : Z) (acc : nat * Store) (it : InventoryItem) :
  let r := check_step window now acc it in
  (length (rows (snd r)) + fst acc = length (rows (snd acc)) + fst r)%nat.
Proof.
  destruct acc as [cnt s]. unfold check_step.
  destruct (alert_kind it) as [k |]; [| simpl; lia].
  destruct (create window now s (alert_event it k)) as [[o s'] | e] eqn:Ec;
    [| simpl; lia].
  pose proof (create_rows _ _ _ _ _ _ Ec) as Hl.
  destruct o; simpl in *; lia.
Qed.

Lemma check_fold_count (window now : Z) (items : list InventoryItem) :
  forall acc,
    let r := fold_left (check_step window now) items acc in
    (length (rows (snd r)) + fst acc = length (rows (snd acc)) + fst r)%nat.
Proof.
  induction items as [| it items IH]; intros acc; simpl; [reflexivity |].
  specialize (IH (check_step window now acc it)). simpl in IH.
  pose proof (check_step_count window now acc it) as Hs. simpl in Hs.
  lia.
Qed.

(** C3: the scan emits [inventory_out] for a stock at or below zero,
    [inventory_low] for a positive stock at or below the minimum and
    nothing otherwise; each emission goes through [create], and the count
    returned is the number of rows inserted. On the spec's three items it
    creates an out-of-stock and a low-stock alert, and an immediate second
    scan creates none. *)
Theorem checkInventoryAndCreateAlerts_count (window now : Z) (s : Store)
  (items : list InventoryItem) (Hw : (0 <= window)%Z) :
  (forall it,
     ((current_stock it <= 0)%Z -> alert_kind it = Some inventory_out)
     /\ ((0 < current_stock it <= minimum_stock it)%Z ->
         alert_kind it = Some inventory_low)
     /\ ((0 < current_stock it)%Z -> (minimum_stock it < current_stock it)%Z ->
         alert_kind it = None))
  /\ (length (rows (snd (checkInventoryAndCreateAlerts window now s items)))
      = length (rows s) + fst (checkInventoryAndCreateAlerts window now s items))%nat
  /\ (let r1 := checkInventoryAndCreateAlerts window now empty_store scan_items in
      fst r1 = 2%nat
      /\ map notification_type (rows (snd r1)) = [TError; TWarning]
      /\ fst (checkInventoryAndCreateAlerts window now (snd r1) scan_items) = 0%nat).
Proof.
  split; [| split].
  - intros it. unfold alert_kind. repeat split; intros H.
    + apply Z.leb_le in H. rewrite H. reflexivity.
    + destruct H as [H1 H2].
      replace (Z.leb (current_stock it) 0) with false by (symmetry; apply Z.leb_gt; lia).
      apply Z.leb_le in H2. rewrite H2. reflexivity.
    + intros H2.
      replace (Z.leb (current_stock it) 0) with false by (symmetry; apply Z.leb_gt; lia).
      replace (Z.leb (current_stock it) (minimum_stock it)) with false
        by (symmetry; apply Z.leb_gt; lia).
      reflexivity.
  - pose proof (check_fold_count window now items (0%nat, s)) as H.
    unfold checkInventoryAndCreateAlerts. simpl in H. lia.
  - assert (Hle : Z.leb (now - window) now = true) by (apply Z.leb_le; lia).
    cbv zeta. split; [reflexivity |]. split; [reflexivity |].
    unfold checkInventoryAndCreateAlerts, check_step, create, should_create, is_match.
    cbn -[Z.sub]. rewrite !Hle. cbn -[Z.sub]. try rewrite !Hle. reflexivity.
Qed.

Lemma checkInventoryAndCreateAlerts_count_witness :
  (0 <= 21600)%Z /\
  fst (checkInventoryAndCreateAlerts 21600 0 empty_store scan_items) = 2%nat.
Proof.
  split; [lia |].
  exact (proj1 (proj2 (proj2 (checkInventoryAndCreateAlerts_count 21600 0
                                empty_store scan_items ltac:(lia))))).
Defined.

End InventoryScan.

(* ------------------------------------------------------------------ *)
(** ** Marking as read *)

Module MarkRead.
Import Service.

Lemma find_set_read_first (Id : Type) (id_eq : Id -> Id -> bool) (nid : Id)
  (l : list (ClientNotif Id)) :
  find (fun n => id_eq (cn_id n) nid) (set_read_first Id id_eq nid l)
  = option_map (fun n => mkClientNotif (cn_id n) true (cn_fields n))
               (find (fun n => id_eq (cn_id n) nid) l).
Proof.
  induction l as [| n l IH]; simpl; [reflexivity |].
  destruct (id_eq (cn_id n) nid) eqn:E; simpl; [rewrite E; reflexivity |].
  rewrite E. exact IH.
Qed.

(** The client's local update is idempotent. *)
Lemma client_markAsRead_idem (Id : Type) (id_eq : Id -> Id -> bool) (nid : Id)
  (st : ClientState Id) :
  client_markAsRead Id id_eq true nid (client_markAsRead Id id_eq true nid st)
  = client_markAsRead Id id_eq true nid st.
Proof.
  unfold client_markAsRead at 2 3.
  destruct (find (fun n => id_eq (cn_id n) nid) (notifications st)) as [n |] eqn:E.
  - destruct (cn_is_read n) eqn:R; simpl.
    + unfold client_markAsRead. rewrite E, R. reflexivity.
    + unfold client_markAsRead; simpl.
      rewrite find_set_read_first, E. reflexivity.
  - unfold client_markAsRead. rewrite E. reflexivity.
Qed.

Lemma set_read_idem (n : Notification) : set_read (set_read n) = set_read n.
Proof. destruct n; reflexivity. Qed.

Lemma id_upd_read (nid : N) (r : Notification) : id (upd_read nid r) = id r.
Proof. unfold upd_read. destruct (N.eqb (id r) nid); [destruct r |]; reflexivity. Qed.

Lemma find_upd_read (nid : N) (l : list Notification) :
  find (fun n => N.eqb (id n) nid) (map (upd_read nid) l)
  = option_map set_read (find (fun n => N.eqb (id n) nid) l).
Proof.
  induction l as [| r l IH]; simpl; [reflexivity |].
  rewrite id_upd_read.
  destruct (N.eqb (id r) nid) eqn:E; simpl; [| exact IH].
  unfold upd_read. rewrite E. reflexivity.
Qed.

Lemma map_upd_read_idem (nid : N) (l : list Notification) :
  map (upd_read nid) (map (upd_read nid) l) = map (upd_read nid) l.
Proof.
  induction l as [| r l IH]; simpl; [reflexivity |]. rewrite IH. f_equal.
  unfold upd_read. destruct (N.eqb (id r) nid) eqn:E; [| rewrite E; reflexivity].
  destruct r; simpl in *. rewrite E. reflexivity.
Qed.

Lemma sys_markAsRead_found (s : Store) (c : ClientState N) (nid : N)
  (n : Notification) :
  find_row nid s = Some n ->
  sys_markAsRead nid (s, c)
  = (Ok (set_read n),
     (mkStore (map (upd_read nid) (rows s)) (next_id s),
      client_markAsRead N N.eqb true nid c)).
Proof. intros H. unfold sys_markAsRead, markRead. rewrite H. reflexivity. Qed.

(** C5: [markRead] twice on an existing id succeeds twice with the same
    notification, now read, and the second call changes neither the
    store, nor its unread count, nor the client's list and unread
    counter; on an absent id it fails with [NotFound] and changes
    nothing. *)
Theorem markRead_idempotent :
  (forall (s : Store) (c : ClientState N) (nid : N),
     find_row nid s <> None ->
     let o1 := sys_markAsRead nid (s, c) in
     let o2 := sys_markAsRead nid (snd o1) in
     (exists n, fst o1 = Ok n /\ fst o2 = Ok n /\ is_read n = true)
     /\ snd o2 = snd o1
     /\ unread_count (fst (snd o2)) = unread_count (fst (snd o1))
     /\ unreadCount (snd (snd o2)) = unreadCount (snd (snd o1)))
  /\ (forall (s : Store) (c : ClientState N) (nid : N),
        find_row nid s = None ->
        sys_markAsRead nid (s, c) = (Err NotFound, (s, c))).
Proof.
  split.
  - intros s c nid Hin.
    destruct (find_row nid s) as [n |] eqn:E; [| congruence].
    rewrite (sys_markAsRead_found s c nid n E). cbn [fst snd].
    assert (E2 : find_row nid (mkStore (map (upd_read nid) (rows s)) (next_id s))
                 = Some (set_read n)).
    { unfold find_row; simpl. rewrite find_upd_read. fold (find_row nid s).
      rewrite E. reflexivity. }
    rewrite (sys_markAsRead_found _ _ nid _ E2). cbn [fst snd rows next_id].
    rewrite set_read_idem, map_upd_read_idem, client_markAsRead_idem.
    repeat split; try reflexivity.
    exists (set_read n). repeat split.
  - intros s c nid H. unfold sys_markAsRead, markRead. rewrite H. reflexivity.
Qed.

Lemma markRead_idempotent_witness :
  find_row 1%N Scenario.low_only <> None
  /\ snd (sys_markAsRead 1%N (snd (sys_markAsRead 1
            (Scenario.low_only, mkClientState [] 0%Z))))
     = snd (sys_markAsRead 1%N (Scenario.low_only, mkClientState [] 0%Z))
  /\ find_row 1%N empty_store = None
  /\ sys_markAsRead 1%N (empty_store, mkClientState [] 0%Z)
     = (Err NotFound, (empty_store, mkClientState [] 0%Z)).
Proof.
  split; [discriminate |]. split.
  - exact (proj1 (proj2 (proj1 markRead_idempotent Scenario.low_only
                           (mkClientState [] 0%Z) 1%N ltac:(discriminate)))).
  - split; [reflexivity |].
    apply (proj2 markRead_idempotent). reflexivity.
Defined.

End MarkRead.

(* ------------------------------------------------------------------ *)
(** ** REST requests *)

Module RestFacts.
Import Rest.

Lemma flip_only_refl (r : Row) : flip_only r r.
Proof. unfold flip_only. auto. Qed.

Lemma flip_only_read (r : Row) : flip_only r (set_field "is_read" (JBool true) r).
Proof.
  unfold flip_only, row_get, set_field; simpl. repeat split; auto.
  intros k H1 _. apply String.eqb_neq in H1. rewrite H1. reflexivity.
Qed.

Lemma flip_only_dismissed (r : Row) :
  flip_only r (set_field "is_dismissed" (JBool true) r).
Proof.
  unfold flip_only, row_get, set_field; simpl. repeat split; auto.
  intros k _ H2. apply String.eqb_neq in H2. rewrite H2. reflexivity.
Qed.

Create HintDb flips.
#[local] Hint Resolve flip_only_refl flip_only_read flip_only_dismissed : flips.

(** C4: the only writes the notification clients send for an existing
    notification set [is_read] or [is_dismissed] to [true]:
    [markAsRead] and [markAsDismissed] send a [PUT] carrying that one
    field, and whatever the call, an existing row keeps every other field
    and no flag goes back to [false]; a row disappears only on [delete]
    or [cleanupExpired]. *)
Theorem client_calls_only_flip
  (bulk_match : list (string * string) -> Row -> bool) (purge : Row -> bool) :
  (forall nid,
     request_of (markAsRead nid)
     = mkRequest PUT (API_BASE_URL ++ "/notifications/" ++ js_to_string nid) []
                 [("is_read", JBool true)])
  /\ (forall nid,
        request_of (markAsDismissed nid)
        = mkRequest PUT (API_BASE_URL ++ "/notifications/" ++ js_to_string nid) []
                    [("is_dismissed", JBool true)])
  /\ (forall call r,
        match server_effect bulk_match purge (request_of call) r with
        | Some r' => flip_only r r'
        | None => (exists nid, call = delete nid) \/ call = cleanupExpired
        end).
Proof.
  split; [reflexivity |]. split; [reflexivity |].
  intros call r.
  destruct call; unfold server_effect; simpl;
    repeat match goal with
           | |- context [if ?b then _ else _] => destruct b
           end;
    eauto with flips.
Qed.

(** C6 refuted: [notificationsAPI] scopes to a staff member under the
    query key [user_id]; a filter named [recipient_id] is not sent. *)
Lemma getAll_sends_user_id :
  query (request_of (getAll [("user_id", JNum 7)])) = [("user_id", "7")]
  /\ query (request_of (getAll [("recipient_id", JNum 7)])) = []
  /\ query (request_of (markAllAsRead (JNum 7) JNull)) = [("user_id", "7")].
Proof. repeat split; reflexivity. Qed.

(** C6 amended: the api.js client ([getAll], [getStats], [getUnreadCount],
    [markAllAsRead]) sends the scope under [user_id] and never under
    [recipient_id]; the enhanced-api.js client ([getNotifications],
    [markAllNotificationsRead] on /system/notifications) sends it under
    [recipient_id]. *)
Theorem scope_query_keys :
  (forall filters,
     let q := query (request_of (getAll filters)) in
     assoc q "recipient_id" = None
     /\ assoc q "user_id" =
        (if truthy (obj_get filters "user_id")
         then Some (js_to_string (obj_get filters "user_id")) else None))
  /\ (forall userId category,
        let q := query (request_of (markAllAsRead userId category)) in
        assoc q "recipient_id" = None
        /\ assoc q "user_id" =
           (if truthy (default_null userId)
            then Some (js_to_string (default_null userId)) else None))
  /\ (forall userId,
        query (request_of (getStats userId))
        = query (request_of (getUnreadCount userId))
        /\ assoc (query (request_of (getStats userId))) "recipient_id" = None
        /\ assoc (query (request_of (getStats userId))) "user_id" =
           (if truthy (default_null userId)
            then Some (js_to_string (default_null userId)) else None))
  /\ (forall recipientId isRead notificationType,
        let q := query (request_of
                          (getNotifications recipientId isRead notificationType)) in
        assoc q "user_id" = None
        /\ assoc q "recipient_id" =
           (if truthy (default_null recipientId)
            then Some (js_to_string (default_null recipientId)) else None))
  /\ (forall recipientId,
        let q := query (request_of (markAllNotificationsRead recipientId)) in
        assoc q "user_id" = None
        /\ assoc q "recipient_id" =
           (if truthy (default_null recipientId)
            then Some (js_to_string (default_null recipientId)) else None)).
Proof.
  repeat split; intros; simpl; unfold append_if;
    repeat match goal with
           | |- context [if truthy ?v then _ else _] => destruct (truthy v)
           | |- context [match default_null ?v with _ => _ end] =>
               destruct (default_null v)
           end;
    reflexivity.
Qed.

End RestFacts.

(* ================================================================== *)
(** * Further properties of the client code *)

Module ClientExtra.

(** [getTypeIcon] maps the four notification types to their icons and any
    other type that is not inherited from [Object.prototype] to the info
    icon; an inherited name such as "constructor" returns the inherited
    value instead. *)
Theorem getTypeIcon_fallback :
  getTypeIcon "info" = JStr "fas fa-info"
  /\ getTypeIcon "warning" = JStr "fas fa-exclamation-triangle"
  /\ getTypeIcon "error" = JStr "fas fa-exclamation-circle"
  /\ getTypeIcon "success" = JStr "fas fa-check-circle"
  /\ (forall t, assoc type_icons t = None -> assoc object_prototype t = None ->
                getTypeIcon t = JStr "fas fa-info")
  /\ getTypeIcon "constructor" = JFun "Object".
Proof.
  repeat split; try reflexivity.
  intros t H1 H2. unfold getTypeIcon, obj_get. rewrite H1, H2. reflexivity.
Qed.

Lemma div_bounds (x b lo hi : Z) :
  (0 < b)%Z -> (b * lo <= x < b * hi)%Z -> (lo <= x / b < hi)%Z.
Proof.
  intros Hb [H1 H2]. split.
  - apply Z.div_le_lower_bound; lia.
  - apply Z.div_lt_upper_bound; lia.
Qed.

(** [getTimeAgo]: under a minute, and for any date in the future, it
    reads "Just now"; then whole minutes 1..59, whole hours 1..23, and
    whole days from 1 on; an invalid date gives "NaNd ago". *)
Theorem getTimeAgo_buckets :
  (forall d now, (now - d < 60000)%Z -> getTimeAgo (Some d) now = "Just now")
  /\ (forall d now, (60000 <= now - d < 3600000)%Z ->
        getTimeAgo (Some d) now = string_of_Z ((now - d) / 1000 / 60) ++ "m ago"
        /\ (1 <= (now - d) / 1000 / 60 <= 59)%Z)
  /\ (forall d now, (3600000 <= now - d < 86400000)%Z ->
        getTimeAgo (Some d) now = string_of_Z ((now - d) / 1000 / 3600) ++ "h ago"
        /\ (1 <= (now - d) / 1000 / 3600 <= 23)%Z)
  /\ (forall d now, (86400000 <= now - d)%Z ->
        getTimeAgo (Some d) now = string_of_Z ((now - d) / 1000 / 86400) ++ "d ago"
        /\ (1 <= (now - d) / 1000 / 86400)%Z)
  /\ (forall now, getTimeAgo None now = "NaNd ago").
Proof.
  refine (conj _ (conj _ (conj _ (conj _ _)))).
  - intros d now H. unfold getTimeAgo.
    assert (Hq : ((now - d) / 1000 < 60)%Z) by (apply Z.div_lt_upper_bound; lia).
    destruct (Z.ltb_spec ((now - d) / 1000) 60); [reflexivity | lia].
  - intros d now H.
    pose proof (div_bounds (now - d) 1000 60 3600 ltac:(lia) ltac:(lia)).
    pose proof (div_bounds ((now - d) / 1000) 60 1 60 ltac:(lia) ltac:(lia)).
    split; [| lia]. unfold getTimeAgo.
    destruct (Z.ltb_spec ((now - d) / 1000) 60); [lia |].
    destruct (Z.ltb_spec ((now - d) / 1000) 3600); [reflexivity | lia].
  - intros d now H.
    pose proof (div_bounds (now - d) 1000 3600 86400 ltac:(lia) ltac:(lia)).
    pose proof (div_bounds ((now - d) / 1000) 3600 1 24 ltac:(lia) ltac:(lia)).
    split; [| lia]. unfold getTimeAgo.
    destruct (Z.ltb_spec ((now - d) / 1000) 60); [lia |].
    destruct (Z.ltb_spec ((now - d) / 1000) 3600); [lia |].
    destruct (Z.ltb_spec ((now - d) / 1000) 86400); [reflexivity | lia].
  - intros d now H.
    assert (Hq : (86400 <= (now - d) / 1000)%Z) by (apply Z.div_le_lower_bound; lia).
    assert (Hd : (1 <= (now - d) / 1000 / 86400)%Z) by (apply Z.div_le_lower_bound; lia).
    split; [| exact Hd]. unfold getTimeAgo.
    destruct (Z.ltb_spec ((now - d) / 1000) 60); [lia |].
    destruct (Z.ltb_spec ((now - d) / 1000) 3600); [lia |].
    destruct (Z.ltb_spec ((now - d) / 1000) 86400); [lia | reflexivity].
  - intros now. reflexivity.
Qed.

End ClientExtra.

Module ClientCounter.

Section Lemmas.

Variable Id : Type.
Variable id_eq : Id -> Id -> bool.

Lemma filter_set_read_first (nid : Id) (l : list (ClientNotif Id)) :
  filter (fun n => negb (id_eq (cn_id n) nid)) (set_read_first Id id_eq nid l)
  = filter (fun n => negb (id_eq (cn_id n) nid)) l.
Proof.
  induction l as [| n l IH]; simpl; [reflexivity |].
  destruct (id_eq (cn_id n) nid) eqn:E; simpl; rewrite E; simpl;
    [reflexivity | rewrite IH; reflexivity].
Qed.

Lemma unread_set_read_first (nid : Id) (l : list (ClientNotif Id)) (n : ClientNotif Id) :
  find (fun n => id_eq (cn_id n) nid) l = Some n -> cn_is_read n = false ->
  (count_unread (set_read_first Id id_eq nid l) + 1 = count_unread l)%Z.
Proof.
  unfold count_unread.
  induction l as [| m l IH]; simpl; [discriminate |].
  destruct (id_eq (cn_id m) nid) eqn:E.
  - intros H Hr. injection H as <-. simpl. rewrite Hr. simpl. lia.
  - intros H Hr. simpl. specialize (IH H Hr).
    destruct (cn_is_read m); simpl; lia.
Qed.

Lemma unread_filter (p : ClientNotif Id -> bool) (l : list (ClientNotif Id)) :
  (count_unread (filter p l) <= count_unread l)%Z.
Proof.
  unfold count_unread.
  induction l as [| m l IH]; cbn [filter length]; [lia |].
  destruct (p m); cbn [filter];
    destruct (cn_is_read m); cbn [filter negb length]; lia.
Qed.

Lemma unread_map_read (l : list (ClientNotif Id)) :
  count_unread (map (fun n => mkClientNotif (cn_id n) true (cn_fields n)) l) = 0%Z.
Proof.
  unfold count_unread. induction l as [| m l IH]; simpl; [reflexivity | exact IH].
Qed.

Lemma count_unread_nonneg (l : list (ClientNotif Id)) : (0 <= count_unread l)%Z.
Proof. unfold count_unread. lia. Qed.

Lemma step_bounds (o : ClientOp Id) (st : ClientState Id) :
  (0 <= unreadCount st)%Z ->
  (0 <= unreadCount (client_step Id id_eq o st) <= unreadCount st)%Z.
Proof.
  intros H. destruct o as [ok nid | ok nid | ok]; simpl.
  - unfold client_markAsRead. destruct ok; [| lia].
    destruct (find _ _) as [n |]; [| lia].
    destruct (negb (cn_is_read n)); simpl; lia.
  - unfold dismissNotification. destruct ok; [| lia]. simpl.
    destruct (find _ _) as [n |]; [| lia].
    destruct (negb (cn_is_read n)); lia.
  - unfold client_markAllAsRead. destruct ok; simpl; lia.
Qed.

Lemma step_count_le (o : ClientOp Id) (st : ClientState Id) :
  (count_unread (notifications st) <= unreadCount st)%Z ->
  (count_unread (notifications (client_step Id id_eq o st))
   <= unreadCount (client_step Id id_eq o st))%Z.
Proof.
  intros H. destruct o as [ok nid | ok nid | ok]; simpl.
  - unfold client_markAsRead. destruct ok; [| exact H].
    destruct (find _ _) as [n |] eqn:E; [| exact H].
    destruct (cn_is_read n) eqn:Er; simpl; [exact H |].
    pose proof (unread_set_read_first nid (notifications st) n E Er). lia.
  - unfold dismissNotification. destruct ok; [| exact H]. simpl.
    pose proof (unread_filter (fun n => negb (id_eq (cn_id n) nid)) (notifications st)).
    rewrite find_in_filter_negb. lia.
  - unfold client_markAllAsRead. destruct ok; simpl; [| exact H].
    rewrite unread_map_read. lia.
Qed.

End Lemmas.

(** The badge counter of [NotificationManager] never goes negative and
    never grows through [markAsRead], [dismissNotification] or
    [markAllAsRead], in any order and whether the API calls succeed or
    throw. *)
Theorem client_run_unreadCount_bounds (Id : Type) (id_eq : Id -> Id -> bool)
  (os : list (ClientOp Id)) (st : ClientState Id)
  (H : (0 <= unreadCount st)%Z) :
  (0 <= unreadCount (client_run id_eq os st) <= unreadCount st)%Z.
Proof.
  unfold client_run. revert st H.
  induction os as [| o os IH]; simpl; intros st H; [lia |].
  pose proof (step_bounds Id id_eq o st H) as Hs.
  specialize (IH (client_step Id id_eq o st) (proj1 Hs)). lia.
Qed.

Lemma client_run_unreadCount_bounds_witness :
  let st := mkClientState [mkClientNotif 1%nat false []; mkClientNotif 2%nat true []] 3%Z in
  (0 <= unreadCount st)%Z
  /\ (0 <= unreadCount (client_run Nat.eqb [OpMarkRead true 1%nat; OpDismiss true 2%nat] st)
        <= unreadCount st)%Z.
Proof.
  split; [vm_compute; discriminate |].
  apply (client_run_unreadCount_bounds nat Nat.eqb); vm_compute; discriminate.
Defined.

(** If the counter is at least the number of unread entries listed (as
    after a load whose stats count every unread row), it stays so through
    [markAsRead], [dismissNotification] and [markAllAsRead]: the badge
    never shows fewer unread than the dropdown highlights. *)
Theorem client_run_count_le (Id : Type) (id_eq : Id -> Id -> bool)
  (os : list (ClientOp Id)) (st : ClientState Id)
  (H : (count_unread (notifications st) <= unreadCount st)%Z) :
  (count_unread (notifications (client_run id_eq os st))
   <= unreadCount (client_run id_eq os st))%Z.
Proof.
  unfold client_run. revert st H.
  induction os as [| o os IH]; simpl; intros st H; [exact H |].
  apply IH, step_count_le, H.
Qed.

Lemma client_run_count_le_witness :
  let st := mkClientState [mkClientNotif 1%nat false []; mkClientNotif 2%nat false []] 2%Z in
  (count_unread (notifications st) <= unreadCount st)%Z
  /\ (count_unread (notifications (client_run Nat.eqb
         [OpDismiss true 1%nat; OpMarkRead true 2%nat; OpMarkAll false] st))
      <= unreadCount (client_run Nat.eqb
         [OpDismiss true 1%nat; OpMarkRead true 2%nat; OpMarkAll false] st))%Z.
Proof.
  split; [vm_compute; discriminate |].
  apply (client_run_count_le nat Nat.eqb); vm_compute; discriminate.
Defined.

(** Dismissing an unread notification never decrements the counter
    (the lookup runs on the already filtered list), while marking it read
    first and then dismissing it does: both orders leave the same list,
    and from a counter equal to the listed unread entries the dismiss-only
    order leaves the badge one above them. *)
Theorem dismiss_unread_keeps_count (Id : Type) (id_eq : Id -> Id -> bool)
  (nid : Id) (st : ClientState Id) (n : ClientNotif Id)
  (Hf : find (fun n => id_eq (cn_id n) nid) (notifications st) = Some n)
  (Hr : cn_is_read n = false) :
  let d := dismissNotification Id id_eq true nid st in
  let md := dismissNotification Id id_eq true nid
              (client_markAsRead Id id_eq true nid st) in
  notifications md = notifications d
  /\ unreadCount d = unreadCount st
  /\ unreadCount md = Z.max 0 (unreadCount st - 1)
  /\ client_markAsRead Id id_eq true nid d = d
  /\ (count_unread (notifications st) = unreadCount st ->
      (count_unread (notifications d) < unreadCount d)%Z).
Proof.
  cbv zeta.
  assert (Hm : client_markAsRead Id id_eq true nid st
               = mkClientState (set_read_first Id id_eq nid (notifications st))
                               (Z.max 0 (unreadCount st - 1))).
  { unfold client_markAsRead. rewrite Hf, Hr. reflexivity. }
  rewrite Hm. unfold dismissNotification; simpl.
  rewrite filter_set_read_first, !find_in_filter_negb.
  split; [reflexivity |]. split; [reflexivity |]. split; [reflexivity |].
  split.
  - unfold client_markAsRead; simpl. try rewrite find_in_filter_negb. reflexivity.
  - intros Hc.
    assert (Hlt : (count_unread (filter (fun n => negb (id_eq (cn_id n) nid))
                                        (notifications st))
                   < count_unread (notifications st))%Z).
    { clear Hm Hc. unfold count_unread.
      induction (notifications st) as [| m l IH]; simpl in *; [discriminate |].
      destruct (id_eq (cn_id m) nid) eqn:E; simpl.
      - injection Hf as <-. rewrite Hr. simpl.
        pose proof (unread_filter Id (fun n => negb (id_eq (cn_id n) nid)) l) as Hu.
        unfold count_unread in Hu. lia.
      - specialize (IH Hf). destruct (cn_is_read m); simpl; lia. }
    simpl. lia.
Qed.

Lemma dismiss_unread_keeps_count_witness :
  let st := mkClientState [mkClientNotif 4%nat true []; mkClientNotif 5%nat false []] 1%Z in
  find (fun n => Nat.eqb (cn_id n) 5%nat) (notifications st)
    = Some (mkClientNotif 5%nat false [])
  /\ cn_is_read (mkClientNotif (Id := nat) 5%nat false []) = false
  /\ notifications (dismissNotification nat Nat.eqb true 5%nat
                      (client_markAsRead nat Nat.eqb true 5%nat st))
     = notifications (dismissNotification nat Nat.eqb true 5%nat st)
  /\ unreadCount (dismissNotification nat Nat.eqb true 5%nat st) = unreadCount st
  /\ unreadCount (dismissNotification nat Nat.eqb true 5%nat
                    (client_markAsRead nat Nat.eqb true 5%nat st))
     = Z.max 0 (unreadCount st - 1)
  /\ client_markAsRead nat Nat.eqb true 5%nat
       (dismissNotification nat Nat.eqb true 5%nat st)
     = dismissNotification nat Nat.eqb true 5%nat st
  /\ (count_unread (notifications st) = unreadCount st ->
      (count_unread (notifications (dismissNotification nat Nat.eqb true 5%nat st))
       < unreadCount (dismissNotification nat Nat.eqb true 5%nat st))%Z).
Proof.
  intros st. split; [reflexivity |]. split; [reflexivity |].
  exact (dismiss_unread_keeps_count nat Nat.eqb 5%nat st (mkClientNotif 5%nat false [])
           eq_refl eq_refl).
Defined.

(** [markAllAsRead()]: a failed call changes nothing; a successful one
    keeps every entry with its id and fields, flags all of them read and
    resets the counter, after which [markAllAsRead] again and
    [markAsRead] of any id change nothing. *)
Theorem client_markAllAsRead_spec (Id : Type) (id_eq : Id -> Id -> bool) :
  (forall st : ClientState Id, client_markAllAsRead false st = st)
  /\ (forall st : ClientState Id,
        let st' := client_markAllAsRead true st in
        map cn_id (notifications st') = map cn_id (notifications st)
        /\ map cn_fields (notifications st') = map cn_fields (notifications st)
        /\ Forall (fun n => cn_is_read n = true) (notifications st')
        /\ unreadCount st' = 0%Z
        /\ client_markAllAsRead true st' = st'
        /\ (forall nid, client_markAsRead Id id_eq true nid st' = st')).
Proof.
  split; [reflexivity |]. intros st. cbv zeta. unfold client_markAllAsRead; simpl.
  rewrite !map_map. simpl.
  split; [reflexivity |]. split; [reflexivity |].
  split; [apply Forall_forall; intros x Hx; apply in_map_iff in Hx;
          destruct Hx as [y [<- _]]; reflexivity |].
  split; [reflexivity |].
  split; [f_equal; try rewrite map_map; reflexivity |].
  intros nid. unfold client_markAsRead; simpl.
  destruct (find _ _) as [n |] eqn:E; [| reflexivity].
  apply find_some in E as [Hin _]. apply in_map_iff in Hin as [y [<- _]].
  reflexivity.
Qed.

End ClientCounter.

Module PollRestart.

Lemma fresh_init (first_id : N) : poll_ids_fresh (poll_init first_id).
Proof. intros t H. discriminate. Qed.

Lemma fresh_start (s : PollState) : poll_ids_fresh s -> poll_ids_fresh (startPolling s).
Proof.
  unfold startPolling. destruct (isPolling s); [tauto |].
  intros _ t H. simpl in *. injection H as <-. lia.
Qed.

Lemma fresh_stop (s : PollState) : poll_ids_fresh s -> poll_ids_fresh (stopPolling s).
Proof.
  unfold stopPolling. destruct (pollIntervalId s) as [t |] eqn:E; [| tauto].
  destruct (negb (N.eqb t 0)); [| tauto].
  intros H t' Ht'. simpl in *. apply H, Ht'.
Qed.

Lemma fresh_fire (t : N) (s : PollState) : poll_ids_fresh s -> poll_ids_fresh (fire t s).
Proof.
  unfold fire. destruct (existsb _ _); [| tauto].
  intros H t' Ht'. simpl in *. apply H, Ht'.
Qed.

Lemma fresh_run (first_id : N) (es : list PollEvent) :
  poll_ids_fresh (poll_run first_id es).
Proof.
  unfold poll_run.
  generalize (fresh_start _ (fresh_init first_id)).
  generalize (startPolling (poll_init first_id)).
  induction es as [| e es IH]; simpl; intros s Hs; [exact Hs |].
  apply IH. destruct e; simpl;
    [apply fresh_start | apply fresh_stop | apply fresh_fire]; exact Hs.
Qed.

(** Stopping and restarting the polling of a running manager swaps its
    interval timer for a new one with a fresh id: exactly one timer of
    30 s runs, and the old timer never fires [loadNotifications] again. *)
Theorem polling_restart (first_id : N) (es : list PollEvent)
  (Hid : (0 < first_id)%N)
  (Hp : isPolling (poll_run first_id es) = true) :
  let s := poll_run first_id es in
  let s' := startPolling (stopPolling s) in
  isPolling s' = true
  /\ pollIntervalId s' <> pollIntervalId s
  /\ (exists t', pollIntervalId s' = Some t' /\ timers s' = [(t', 30000%Z)])
  /\ (forall t, pollIntervalId s = Some t -> fire t s' = s').
Proof.
  cbv zeta.
  pose proof (poll_inv_run first_id es Hid) as [Hi [Hn [Hz Hs]]].
  pose proof (fresh_run first_id es) as Hf.
  set (s := poll_run first_id es) in *. rewrite Hp in Hs.
  destruct Hs as [t [Ht Hts]].
  specialize (Hz t Ht). specialize (Hf t Ht).
  unfold stopPolling. rewrite Ht.
  assert (E0 : N.eqb t 0 = false) by (apply N.eqb_neq; exact Hz).
  rewrite E0. unfold startPolling; simpl. rewrite Hts, Hi. simpl.
  rewrite N.eqb_refl. simpl.
  split; [reflexivity |].
  split; [try rewrite Ht; intros He; injection He; lia |].
  split; [eexists; split; reflexivity |].
  intros t0 Ht0. try rewrite Ht in Ht0. injection Ht0 as <-.
  unfold fire; simpl.
  assert (E : N.eqb (next_timer s) t = false) by (apply N.eqb_neq; lia).
  rewrite E. reflexivity.
Qed.

Lemma polling_restart_witness :
  (0 < 1)%N /\ isPolling (poll_run 1 [EvFire 1; EvStop; EvStart]) = true
  /\ isPolling (startPolling (stopPolling (poll_run 1 [EvFire 1; EvStop; EvStart]))) = true.
Proof.
  split; [reflexivity |]. split; [reflexivity |].
  apply (polling_restart 1 [EvFire 1; EvStop; EvStart]); reflexivity.
Defined.

End PollRestart.

Module RestQuery.
Import Rest RestMore.

Lemma in_append_if (key k v : string) (x : jsval) (ps : list (string * string)) :
  In (k, v) (append_if key x ps) -> In (k, v) ps \/ (k = key /\ truthy x = true).
Proof.
  unfold append_if. destruct (truthy x) eqn:E; [| tauto].
  intros H. apply in_app_or in H as [H | [H | []]]; [tauto |].
  injection H as Hk Hv. subst. tauto.
Qed.

Lemma in_append_if_defined (key k v : string) (x : jsval) (ps : list (string * string)) :
  In (k, v) (append_if_defined key x ps) -> In (k, v) ps \/ (k = key /\ x <> JUndef).
Proof.
  unfold append_if_defined. destruct x;
    try (intros H; apply in_app_or in H as [H | [H | []]]; [tauto |];
         injection H as Hk Hv; subst; right; split; [reflexivity | discriminate]).
  tauto.
Qed.

Lemma in_app_last {A} (x : A) (l : list A) : In x (List.app l [x]).
Proof. apply in_or_app. right. left. reflexivity. Qed.

Lemma append_if_defined_sent (key : string) (x : jsval) (ps : list (string * string)) :
  x <> JUndef -> append_if_defined key x ps = List.app ps [(key, js_to_string x)].
Proof. destruct x; simpl; congruence. Qed.

Lemma append_if_keep (key : string) (x : jsval) (e : string * string)
  (ps : list (string * string)) :
  In e ps -> In e (append_if key x ps).
Proof.
  unfold append_if. destruct (truthy x); [| tauto].
  intros H. apply in_or_app. left. exact H.
Qed.

Lemma append_if_sent (key : string) (x : jsval) (ps : list (string * string)) :
  truthy x = true -> In (key, js_to_string x) (append_if key x ps).
Proof. unfold append_if. intros ->. apply in_app_last. Qed.

(** The list fetches of api.js test their flags differently:
    [menuAPI.getAll] and [staffAPI.getAll] send [active_only] as its
    string whenever it is not undefined ([null] as "null", [0] as "0",
    [false] as "false") and leave it out when it is undefined, while
    [inventoryAPI.getAll] sends [low_stock_only] and [alcohol_only] only
    when truthy; a falsy [category] or [position] is never sent. *)
Theorem getAll_flag_tests :
  (forall params, obj_get params "active_only" <> JUndef ->
     In ("active_only", js_to_string (obj_get params "active_only"))
        (query (menu_getAll params))
     /\ In ("active_only", js_to_string (obj_get params "active_only"))
           (query (staff_getAll params)))
  /\ (forall params, obj_get params "active_only" = JBool false ->
        In ("active_only", "false") (query (menu_getAll params))
        /\ In ("active_only", "false") (query (staff_getAll params)))
  /\ (forall params v, obj_get params "active_only" = JUndef ->
        ~ In ("active_only", v) (query (menu_getAll params))
        /\ ~ In ("active_only", v) (query (staff_getAll params)))
  /\ (forall params key, key = "low_stock_only" \/ key = "alcohol_only" ->
        truthy (obj_get params key) = true ->
        In (key, js_to_string (obj_get params key)) (query (inventory_getAll params)))
  /\ (forall params key v, key = "low_stock_only" \/ key = "alcohol_only" ->
        truthy (obj_get params key) = false ->
        ~ In (key, v) (query (inventory_getAll params)))
  /\ (forall params v,
        truthy (obj_get params "category") = false ->
        ~ In ("category", v) (query (menu_getAll params))
        /\ ~ In ("category", v) (query (inventory_getAll params)))
  /\ (forall params v,
        truthy (obj_get params "position") = false ->
        ~ In ("position", v) (query (staff_getAll params))).
Proof.
  refine (conj _ (conj _ (conj _ (conj _ (conj _ (conj _ _)))))).
  - intros params H. unfold menu_getAll, staff_getAll; simpl.
    rewrite !append_if_defined_sent by exact H.
    split; apply in_app_last.
  - intros params H. unfold menu_getAll, staff_getAll; simpl. rewrite H.
    split; apply in_app_last.
  - intros params v H. unfold menu_getAll, staff_getAll; simpl. rewrite H.
    split; intros Hin; apply in_append_if in Hin as [[] | [Hk _]]; discriminate.
  - intros params key [-> | ->] Ht; unfold inventory_getAll; simpl.
    + apply append_if_keep, append_if_sent, Ht.
    + apply append_if_sent, Ht.
  - intros params key v Hk Hf. unfold inventory_getAll; simpl. intros Hin.
    apply in_append_if in Hin as [Hin | [-> Ht]].
    + apply in_append_if in Hin as [Hin | [-> Ht]].
      * apply in_append_if in Hin as [[] | [-> _]].
        destruct Hk; discriminate.
      * congruence.
    + congruence.
  - intros params v Hf. unfold menu_getAll, inventory_getAll; simpl. split; intros Hin.
    + apply in_append_if_defined in Hin as [Hin | [Hk _]]; [| discriminate].
      apply in_append_if in Hin as [[] | [_ Ht]]. congruence.
    + apply in_append_if in Hin as [Hin | [Hk _]]; [| discriminate].
      apply in_append_if in Hin as [Hin | [Hk _]]; [| discriminate].
      apply in_append_if in Hin as [[] | [_ Ht]]. congruence.
  - intros params v Hf. unfold staff_getAll; simpl. intros Hin.
    apply in_append_if_defined in Hin as [Hin | [Hk _]]; [| discriminate].
    apply in_append_if in Hin as [[] | [_ Ht]]. congruence.
Qed.

(** [systemAPI.getNotifications(recipientId, isRead, notificationType)]
    sends [is_read] exactly when [isRead] is neither [null] nor
    [undefined] (the default turns [undefined] into [null]), so [false]
    is sent as [is_read=false]; a falsy [recipientId] or
    [notificationType] is left out. *)
Theorem getNotifications_query :
  (forall r v t, v <> JUndef -> v <> JNull ->
     In ("is_read", js_to_string v) (query (request_of (getNotifications r v t))))
  /\ (forall r v t k, (v = JUndef \/ v = JNull) ->
        ~ In ("is_read", k) (query (request_of (getNotifications r v t))))
  /\ (forall r v t k, truthy r = false ->
        ~ In ("recipient_id", k) (query (request_of (getNotifications r v t))))
  /\ (forall r v t k, truthy t = false ->
        ~ In ("notification_type", k) (query (request_of (getNotifications r v t)))).
Proof.
  assert (Hdn : forall x, truthy (default_null x) = truthy x) by (destruct x; reflexivity).
  refine (conj _ (conj _ (conj _ _))).
  - intros r v t Hu Hn. simpl.
    assert (Hd : default_null v = v) by (destruct v; simpl; congruence).
    rewrite Hd. unfold append_if at 1.
    destruct v; try congruence;
      (destruct (truthy (default_null t)); [apply in_or_app; left |]; apply in_app_last).
  - intros r v t k Hv. simpl.
    assert (Hd : default_null v = JNull) by (destruct Hv; subst; reflexivity).
    rewrite Hd. intros Hin.
    apply in_append_if in Hin as [Hin | [Hk _]]; [| discriminate].
    apply in_append_if in Hin as [[] | [Hk _]]. discriminate.
  - intros r v t k Hr. simpl. intros Hin.
    apply in_append_if in Hin as [Hin | [Hk _]]; [| discriminate].
    assert (Hin' : In ("recipient_id", k) (append_if "recipient_id" (default_null r) [])).
    { destruct (default_null v); try exact Hin;
        (apply in_app_or in Hin as [Hin | [Hin | []]]; [exact Hin | discriminate]). }
    apply in_append_if in Hin' as [[] | [_ Ht]]. rewrite Hdn in Ht. congruence.
  - intros r v t k Ht. simpl. intros Hin.
    apply in_append_if in Hin as [Hin | [_ Ht']]; [| rewrite Hdn in Ht'; congruence].
    destruct (default_null v);
      try (apply in_app_or in Hin as [Hin | [Hin | []]]; [| discriminate]);
      apply in_append_if in Hin as [[] | [Hk _]]; discriminate.
Qed.

End RestQuery.

Module ClientMore.



Lemma set_read_first_ids (Id : Type) (id_eq : Id -> Id -> bool) (nid : Id)
  (l : list (ClientNotif Id)) :
  map cn_id (set_read_first Id id_eq nid l) = map cn_id l
  /\ map cn_fields (set_read_first Id id_eq nid l) = map cn_fields l
  /\ Forall2 (fun a b => cn_is_read a = true -> cn_is_read b = true)
             l (set_read_first Id id_eq nid l).
Proof.
  induction l as [| n l [IH1 [IH2 IH3]]]; simpl; [repeat constructor |].
  destruct (id_eq (cn_id n) nid); simpl.
  - split; [reflexivity |]. split; [reflexivity |].
    constructor; [reflexivity |].
    clear. induction l; constructor; auto.
  - rewrite IH1, IH2. split; [reflexivity |]. split; [reflexivity |].
    constructor; auto.
Qed.

(** [markAsRead] keeps every local entry with its id and other fields in
    place and never turns a read entry back to unread; it flags at most
    the first entry with the id, and the counter moves only when that
    entry was unread. *)
Theorem client_markAsRead_shape (Id : Type) (id_eq : Id -> Id -> bool)
  (ok : bool) (nid : Id) (st : ClientState Id) :
  let st' := client_markAsRead Id id_eq ok nid st in
  map cn_id (notifications st') = map cn_id (notifications st)
  /\ map cn_fields (notifications st') = map cn_fields (notifications st)
  /\ Forall2 (fun a b => cn_is_read a = true -> cn_is_read b = true)
             (notifications st) (notifications st')
  /\ (unreadCount st' <> unreadCount st ->
      exists n, find (fun n => id_eq (cn_id n) nid) (notifications st) = Some n
                /\ cn_is_read n = false).
Proof.
  cbv zeta.
  assert (Hrefl : Forall2 (fun a b : ClientNotif Id => cn_is_read a = true -> cn_is_read b = true)
                          (notifications st) (notifications st)).
  { induction (notifications st); constructor; auto. }
  unfold client_markAsRead. destruct ok; [| tauto].
  destruct (find _ _) as [n |] eqn:E; [| tauto].
  destruct (cn_is_read n) eqn:Er; simpl; [tauto |].
  pose proof (set_read_first_ids Id id_eq nid (notifications st)) as [H1 [H2 H3]].
  split; [exact H1 |]. split; [exact H2 |]. split; [exact H3 |].
  intros _. exists n. tauto.
Qed.

End ClientMore.

Module PollFire.

(** In a running manager a timer callback refreshes the list exactly
    when it is the manager's own active interval timer: any other timer
    id, and every timer once polling is stopped, leaves the state as it
    is. *)
Theorem fire_refreshes_own_timer (first_id : N) (es : list PollEvent)
  (Hid : (0 < first_id)%N) (t : N) :
  let s := poll_run first_id es in
  (isPolling s = true /\ pollIntervalId s = Some t ->
     refreshes (fire t s) = S (refreshes s)
     /\ fire t s = mkPollState (isPolling s) (pollIntervalId s) (pollInterval s)
                              (timers s) (next_timer s) (S (refreshes s)))
  /\ (~ (isPolling s = true /\ pollIntervalId s = Some t) -> fire t s = s).
Proof.
  cbv zeta.
  pose proof (poll_inv_run first_id es Hid) as [_ [_ [_ Hs]]].
  set (s := poll_run first_id es) in *.
  unfold fire.
  destruct (isPolling s) eqn:Ep.
  - destruct Hs as [t0 [Ht0 Hts]]. rewrite Hts. simpl.
    destruct (N.eqb t0 t) eqn:E; simpl.
    + apply N.eqb_eq in E. subst t0.
      split; [intros _; split; reflexivity |].
      intros Hn. exfalso. apply Hn. split; [reflexivity | exact Ht0].
    + apply N.eqb_neq in E.
      split; [| reflexivity].
      intros [_ H]. rewrite Ht0 in H. injection H as H. contradiction.
  - rewrite Hs. simpl. split; [intros [H _]; discriminate | reflexivity].
Qed.

Lemma fire_refreshes_own_timer_witness :
  (0 < 3)%N
  /\ refreshes (fire 3 (poll_run 3 [EvFire 3])) = S (refreshes (poll_run 3 [EvFire 3])).
Proof.
  split; [reflexivity |].
  apply (fire_refreshes_own_timer 3 [EvFire 3] ltac:(reflexivity) 3).
  split; reflexivity.
Defined.

End PollFire.
